(** * Chain of Responsibility: request processing handlers

    A shallow embedding of [ChainOfResponsbility.py].  Python objects live
    in an object store addressed by references; methods are computations
    in a small state monad over that store, the [logging] records emitted
    so far and the lines written by [print]. *)

From Stdlib Require Import String Ascii NArith.
From stdpp Require Import base option list gmap fin_maps.

Local Open Scope N_scope.

(** ** Strings *)

(** A Python [str] is a sequence of Unicode code points. *)
Abbreviation str := (list N).

(** A string literal of the source (all of them are ASCII). *)
Definition lit (s : string) : str :=
  List.map N_of_ascii (list_ascii_of_string s).
Arguments lit s%_string : simpl never.

(** [str.isspace] on one code point: the characters that [str.strip()]
    with no argument removes. *)
Definition isspace (c : N) : bool :=
  ((9 <=? c) && (c <=? 13)) || ((28 <=? c) && (c <=? 32))
  || (c =? 133) || (c =? 160) || (c =? 5760)
  || ((8192 <=? c) && (c <=? 8202))
  || (c =? 8232) || (c =? 8233) || (c =? 8239) || (c =? 8287)
  || (c =? 12288).

Fixpoint lstrip (s : str) : str :=
  match s with
  | [] => []
  | c :: s' => if isspace c then lstrip s' else s
  end.

Definition rstrip (s : str) : str := reverse (lstrip (reverse s)).

(** [s.strip()] *)
Definition strip (s : str) : str := rstrip (lstrip s).

(** ** Values and objects *)

Definition loc := positive.
Bind Scope positive_scope with loc.

(** What [handle] can return: a [str], or [None]. *)
Inductive value :=
  | VNone
  | VStr (s : str).

(** Truthiness of an attribute that holds a reference or [None]. *)
Definition is_set (o : option loc) : bool :=
  match o with Some _ => true | None => false end.

(** Truthiness of a string. *)
Definition truthy (s : str) : bool :=
  match s with [] => false | _ => true end.

Record Request := {
  request_id : str;
  _data : option str;          (* [None] when the payload is absent *)
  _client_ip : str
}.

(** The concrete subclasses of [Handler], with their configuration. *)
Inductive handler_class :=
  | DataValidation
  | IPFiltering (blocked_ips : gset str)
  | Caching (cache : gmap str str)
  | FinalProcessing.

Record Handler := {
  cls : handler_class;
  next_handler : option loc
}.

Inductive obj :=
  | ORequest (r : Request)
  | OHandler (h : Handler).

Inductive level := INFO | WARNING.

Record state := {
  heap : gmap loc obj;
  log : list (level * str);    (* records emitted through [logger] *)
  stdout : list str            (* lines written by [print] *)
}.

(** ** The monad of method bodies

    [None] stands for a call that Python would reject: a dangling
    reference or an object of the wrong class. *)

Definition M (A : Type) : Type := state → option (A * state).

Definition ret {A} (a : A) : M A := λ σ, Some (a, σ).

Definition bind {A B} (m : M A) (k : A → M B) : M B := λ σ,
  match m σ with
  | Some (a, σ') => k a σ'
  | None => None
  end.

Definition raise {A} : M A := λ _, None.

Declare Scope M_scope.
Delimit Scope M_scope with M.
Bind Scope M_scope with M.
Notation "x ← y ; z" := (bind y (λ x, z))
  (at level 20, y at level 100, z at level 200, only parsing) : M_scope.
Notation "x ;; z" := (bind x (λ _, z))
  (at level 100, z at level 200, only parsing, right associativity) : M_scope.
Local Open Scope M_scope.

Definition alloc (o : obj) : M loc := λ σ,
  let l := fresh (dom (heap σ)) in
  Some (l, {| heap := <[l := o]> (heap σ); log := log σ; stdout := stdout σ |}).

Definition get_request (l : loc) : M Request := λ σ,
  match heap σ !! l with
  | Some (ORequest r) => Some (r, σ)
  | _ => None
  end.

Definition get_handler (l : loc) : M Handler := λ σ,
  match heap σ !! l with
  | Some (OHandler h) => Some (h, σ)
  | _ => None
  end.

Definition put_handler (l : loc) (h : Handler) : M unit := λ σ,
  Some (tt, {| heap := <[l := OHandler h]> (heap σ);
               log := log σ; stdout := stdout σ |}).

Definition logger (lv : level) (msg : str) : M unit := λ σ,
  Some (tt, {| heap := heap σ; log := log σ ++ [(lv, msg)];
               stdout := stdout σ |}).

Definition print (line : str) : M unit := λ σ,
  Some (tt, {| heap := heap σ; log := log σ;
               stdout := stdout σ ++ [line] |}).

(** ** class Request *)

Module Request.

(** The call [Request(request_id, data, client_ip)]. *)
Definition new (request_id : str) (data : option str) (client_ip : str)
  : M loc :=
  alloc (ORequest {| request_id := request_id; _data := data;
                     _client_ip := client_ip |}).

(** The attribute [self.request_id]. *)
Definition request_id (self : loc) : M str :=
  r ← get_request self; ret (request_id r).

(** The property [data]:
    [self._data.strip() if self._data else ''] *)
Definition data (self : loc) : M str :=
  r ← get_request self;
  ret (match _data r with
        | Some d => if truthy d then strip d else []
        | None => []
        end).

(** The property [client_ip]. *)
Definition client_ip (self : loc) : M str :=
  r ← get_request self; ret (_client_ip r).

End Request.

(** ** class Handler *)

Module Handler.

(** [Handler.__init__] leaves [next_handler] at [None]. *)
Definition new (c : handler_class) : M loc :=
  alloc (OHandler {| cls := c; next_handler := None |}).

Definition set_next (self handler : loc) : M loc :=
  h ← get_handler self;
  put_handler self {| cls := cls h; next_handler := Some handler |};;
  ret handler.

(** The abstract method; its body is [pass], so a call through
    [super()] returns [None]. *)
Definition handle (self request : loc) : M value := ret VNone.

(** Truthiness of [self.next_handler]: a reference to an object is
    true, [None] is false. *)
Definition has_next (self : loc) : M bool :=
  h ← get_handler self; ret (is_set (next_handler h)).

End Handler.

Module DataValidationHandler.

Definition new : M loc := Handler.new DataValidation.

Definition handle (self request : loc) : M value :=
  d ← Request.data request;
  if negb (truthy d) then
    logger WARNING (lit "Invalid data format");;
    ret (VStr (lit "Rejected: Invalid data format"))
  else
    logger INFO (lit "Data validation passed");;
    nxt ← Handler.has_next self;
    if nxt then Handler.handle self request
    else ret (VStr (lit "Validation Complete")).

End DataValidationHandler.

Module IPFilteringHandler.

Definition default_blocked_ips : gset str :=
  {[ lit "192.168.0.10"; lit "10.0.0.1" ]}.

(** [self.blocked_ips = blocked_ips or {"192.168.0.10", "10.0.0.1"}] *)
Definition new (blocked_ips : option (gset str)) : M loc :=
  Handler.new
    (IPFiltering
       match blocked_ips with
       | Some b => if decide (b = ∅) then default_blocked_ips else b
       | None => default_blocked_ips
       end).

Definition blocked_ips (self : loc) : M (gset str) :=
  h ← get_handler self;
  match cls h with
  | IPFiltering b => ret b
  | _ => raise
  end.

Definition handle (self request : loc) : M value :=
  ip ← Request.client_ip request;
  blocked ← blocked_ips self;
  if bool_decide (ip ∈ blocked) then
    ip ← Request.client_ip request;
    logger WARNING (lit "Blocked IP: " ++ ip);;
    ip ← Request.client_ip request;
    ret (VStr (lit "Rejected: Blocked IP " ++ ip))
  else
    logger INFO (lit "IP check passed");;
    nxt ← Handler.has_next self;
    if nxt then Handler.handle self request
    else ret (VStr (lit "IP Check Complete")).

End IPFilteringHandler.

Module CachingHandler.

Definition default_cache : gmap str str :=
  {[ lit "123" := lit "Cached Response for request 123" ]}.

(** [self.cache = cache or {"123": "Cached Response for request 123"}] *)
Definition new (cache : option (gmap str str)) : M loc :=
  Handler.new
    (Caching
       match cache with
       | Some c => if decide (c = ∅) then default_cache else c
       | None => default_cache
       end).

Definition cache (self : loc) : M (gmap str str) :=
  h ← get_handler self;
  match cls h with
  | Caching c => ret c
  | _ => raise
  end.

Definition handle (self request : loc) : M value :=
  let miss : M value :=
    logger INFO (lit "Cache miss");;
    nxt ← Handler.has_next self;
    if nxt then Handler.handle self request
    else ret (VStr (lit "Cache Check Complete")) in
  c ← cache self;
  rid ← Request.request_id request;
  (* [if cached_response := self.cache.get(request.request_id):]
     a missing key gives [None], and an empty string is false too *)
  match c !! rid with
  | Some cached_response =>
      if truthy cached_response then
        rid ← Request.request_id request;
        logger INFO (lit "Cache hit: " ++ rid);;
        ret (VStr cached_response)
      else miss
  | None => miss
  end.

End CachingHandler.

Module FinalProcessingHandler.

Definition new : M loc := Handler.new FinalProcessing.

Definition handle (self request : loc) : M value :=
  rid ← Request.request_id request;
  logger INFO (lit "Processing request " ++ rid);;
  rid ← Request.request_id request;
  d ← Request.data request;
  ret (VStr (lit "Processed: " ++ rid ++ lit " with data '" ++ d ++ lit "'")).

End FinalProcessingHandler.

(** The method call [self.handle(request)]: dispatch on the class of the
    object that [self] refers to. *)
Definition handle (self request : loc) : M value :=
  h ← get_handler self;
  match cls h with
  | DataValidation => DataValidationHandler.handle self request
  | IPFiltering _ => IPFilteringHandler.handle self request
  | Caching _ => CachingHandler.handle self request
  | FinalProcessing => FinalProcessingHandler.handle self request
  end.

(** ** The [__main__] block *)

Definition str_of_value (v : value) : str :=
  match v with
  | VNone => lit "None"
  | VStr s => s
  end.

Fixpoint for_each {A} (xs : list A) (body : A → M unit) : M unit :=
  match xs with
  | [] => ret tt
  | x :: xs' => body x;; for_each xs' body
  end.

(** The four handlers of the script, wired in its order. *)
Record chain := {
  validation_handler : loc;
  ip_handler : loc;
  cache_handler : loc;
  processing_handler : loc
}.

Definition build_chain : M chain :=
  validation_handler ← DataValidationHandler.new;
  ip_handler ← IPFilteringHandler.new None;
  cache_handler ← CachingHandler.new None;
  processing_handler ← FinalProcessingHandler.new;
  (* validation_handler.set_next(ip_handler).set_next(cache_handler)
       .set_next(processing_handler) *)
  l1 ← Handler.set_next validation_handler ip_handler;
  l2 ← Handler.set_next l1 cache_handler;
  Handler.set_next l2 processing_handler;;
  ret {| validation_handler := validation_handler; ip_handler := ip_handler;
         cache_handler := cache_handler;
         processing_handler := processing_handler |}.

Definition main : M unit :=
  hs ← build_chain;
  r1 ← Request.new (lit "200") (Some (lit "Order: 5 units")) (lit "192.168.1.5");
  r2 ← Request.new (lit "201") (Some (lit "Order: 10 units")) (lit "192.168.0.10");
  r3 ← Request.new (lit "123") (Some (lit "Cached content")) (lit "192.168.1.8");
  for_each [r1; r2; r3] (λ req,
    rid ← Request.request_id req;
    print ([10] ++ lit "Processing " ++ rid ++ lit ":");;
    res ← handle (validation_handler hs) req;
    print (str_of_value res)).

Definition init : state := {| heap := ∅; log := []; stdout := [] |}.

(** Run a program from the empty store and keep its result. *)
Definition run {A} (m : M A) : option A := fst <$> m init.

(** The standard chain together with one request. *)
Definition setup (rid : str) (raw : option str) (ip : str) : M (chain * loc) :=
  hs ← build_chain;
  req ← Request.new rid raw ip;
  ret (hs, req).

(** The request handed to one of the handlers of the standard chain. *)
Definition send (entry : chain → loc) (rid : str) (raw : option str) (ip : str)
  : M value :=
  x ← setup rid raw ip;
  handle (entry x.1) x.2.

(** A head handler built by [mk], wired in front of a final handler;
    the same request is given to the head and then to the successor. *)
Definition forward_demo (mk : M loc) : M (value * value) :=
  a ← mk;
  b ← FinalProcessingHandler.new;
  Handler.set_next a b;;
  req ← Request.new (lit "200") (Some (lit "Order: 5 units"))
                    (lit "192.168.1.5");
  via_head ← handle a req;
  via_successor ← handle b req;
  ret (via_head, via_successor).

(** ** Specification vocabulary *)

(** [p] is [s] with its leading and trailing whitespace removed. *)
Definition trimmed (s p : str) : Prop :=
  ∃ pre post,
    s = pre ++ p ++ post
    ∧ forallb isspace pre = true
    ∧ forallb isspace post = true
    ∧ (∀ c, head p = Some c → isspace c = false)
    ∧ (∀ c, last p = Some c → isspace c = false).

(** The normalized payload of a request. *)
Definition payload (r : Request) : str :=
  match _data r with
  | Some d => strip d
  | None => []
  end.

(** Empty, whitespace-only or absent raw payload. *)
Definition blank (raw : option str) : bool :=
  match raw with
  | Some d => forallb isspace d
  | None => true
  end.

(** The state [σ] after the log records [recs] were emitted. *)
Definition logged (σ : state) (recs : list (level * str)) : state :=
  {| heap := heap σ; log := log σ ++ recs; stdout := stdout σ |}.

(** The handler [h] with its successor link pointing at [x]. *)
Definition linked (h : Handler) (x : loc) : obj :=
  OHandler {| cls := cls h; next_handler := Some x |}.

(** The check of a concrete handler on a request: non-empty payload,
    origin not blocked, id not in the cache.  The final handler has no
    check to pass on. *)
Definition passes (h : Handler) (r : Request) : bool :=
  match cls h with
  | DataValidation => truthy (payload r)
  | IPFiltering b => negb (bool_decide (_client_ip r ∈ b))
  | Caching c => bool_decide (c !! request_id r = None)
  | FinalProcessing => false
  end.

(** The check of a concrete handler as the code evaluates it: [true]
    when [handle] goes on to its last line.  For the caching handler a
    key stored with the empty string counts as a miss, as the test is on
    the truth value of [self.cache.get(...)]. *)
Definition continues (h : Handler) (r : Request) : bool :=
  match cls h with
  | DataValidation => truthy (payload r)
  | IPFiltering b => negb (bool_decide (_client_ip r ∈ b))
  | Caching c =>
      match c !! request_id r with
      | Some (_ :: _) => false
      | _ => true
      end
  | FinalProcessing => false
  end.

(** The value and the log record of [self.handle(request)], read off the
    two objects; [handle_outcome] relates it to [handle]. *)
Definition outcome (h : Handler) (r : Request) : value * (level * str) :=
  match cls h with
  | DataValidation =>
      if truthy (payload r) then
        (if is_set (next_handler h) then VNone
         else VStr (lit "Validation Complete"),
         (INFO, lit "Data validation passed"))
      else
        (VStr (lit "Rejected: Invalid data format"),
         (WARNING, lit "Invalid data format"))
  | IPFiltering b =>
      if bool_decide (_client_ip r ∈ b) then
        (VStr (lit "Rejected: Blocked IP " ++ _client_ip r),
         (WARNING, lit "Blocked IP: " ++ _client_ip r))
      else
        (if is_set (next_handler h) then VNone
         else VStr (lit "IP Check Complete"),
         (INFO, lit "IP check passed"))
  | Caching c =>
      match c !! request_id r with
      | Some ((_ :: _) as cached_response) =>
          (VStr cached_response, (INFO, lit "Cache hit: " ++ request_id r))
      | _ =>
          (if is_set (next_handler h) then VNone
           else VStr (lit "Cache Check Complete"),
           (INFO, lit "Cache miss"))
      end
  | FinalProcessing =>
      (VStr (lit "Processed: " ++ request_id r
             ++ lit " with data '" ++ payload r ++ lit "'"),
       (INFO, lit "Processing request " ++ request_id r))
  end.

(** The loop of the script over the requests [reqs], with [head] the
    handler it calls. *)
Definition process_all (head : loc) (reqs : list loc) : M unit :=
  for_each reqs (λ req,
    rid ← Request.request_id req;
    print ([10] ++ lit "Processing " ++ rid ++ lit ":");;
    res ← handle head req;
    print (str_of_value res)).

(** * Properties *)

(** ** [str.strip] *)

Lemma lstrip_spec (s : str) :
  ∃ pre, s = pre ++ lstrip s
         ∧ forallb isspace pre = true
         ∧ ∀ c, head (lstrip s) = Some c → isspace c = false.
Proof.
  induction s as [|c s IH]; simpl.
  - exists []. split_and!; [done | done | intros c Hc; discriminate].
  - destruct (isspace c) eqn:Ec.
    + destruct IH as (pre & Hs & Hpre & Hhd).
      exists (c :: pre). simpl. rewrite Ec, Hpre.
      split_and!; [by rewrite <- Hs | done | done].
    + exists []. split_and!; [done | done |].
      simpl. by intros c' [= <-].
Qed.

Lemma forallb_reverse {A} (f : A → bool) (l : list A) :
  forallb f (reverse l) = forallb f l.
Proof.
  induction l as [|x l IH]; [done|].
  rewrite reverse_cons, forallb_app, IH. simpl.
  destruct (f x), (forallb f l); done.
Qed.

Lemma rstrip_spec (s : str) :
  ∃ post, s = rstrip s ++ post
          ∧ forallb isspace post = true
          ∧ ∀ c, last (rstrip s) = Some c → isspace c = false.
Proof.
  destruct (lstrip_spec (reverse s)) as (pre & Hs & Hpre & Hhd).
  exists (reverse pre). unfold rstrip. split_and!.
  - rewrite <- reverse_app, <- Hs. by rewrite reverse_involutive.
  - by rewrite forallb_reverse.
  - intros c. rewrite last_reverse. apply Hhd.
Qed.

Lemma strip_trimmed (s : str) : trimmed s (strip s).
Proof.
  destruct (lstrip_spec s) as (pre & Hs & Hpre & Hhd).
  destruct (rstrip_spec (lstrip s)) as (post & Ht & Hpost & Hlast).
  exists pre, post. unfold strip. split_and!; try done.
  - by rewrite <- Ht.
  - intros c Hc. apply Hhd. rewrite Ht.
    destruct (rstrip (lstrip s)); [discriminate | done].
Qed.

Lemma lstrip_blank (s : str) : forallb isspace s = true → lstrip s = [].
Proof.
  induction s as [|c s IH]; simpl; [done|].
  destruct (isspace c); simpl; [done | discriminate].
Qed.

Lemma strip_blank (s : str) : forallb isspace s = true → strip s = [].
Proof. intros H. unfold strip. by rewrite (lstrip_blank s H). Qed.

Lemma lstrip_app_space (pre t : str) :
  forallb isspace pre = true → lstrip (pre ++ t) = lstrip t.
Proof.
  induction pre as [|c pre IH]; simpl; [done|].
  destruct (isspace c); simpl; [done | discriminate].
Qed.

Lemma lstrip_id (t : str) :
  (∀ c, head t = Some c → isspace c = false) → lstrip t = t.
Proof.
  destruct t as [|c t]; simpl; [done|].
  intros H. by rewrite (H c eq_refl).
Qed.

Lemma rstrip_app_space (t post : str) :
  forallb isspace post = true → rstrip (t ++ post) = rstrip t.
Proof.
  intros H. unfold rstrip.
  by rewrite reverse_app, lstrip_app_space by by rewrite forallb_reverse.
Qed.

Lemma rstrip_id (t : str) :
  (∀ c, last t = Some c → isspace c = false) → rstrip t = t.
Proof.
  intros H. unfold rstrip. rewrite lstrip_id.
  - apply reverse_involutive.
  - intros c. rewrite head_reverse. apply H.
Qed.

(** The trimmed form is unique: [trimmed] determines [strip]. *)
Lemma trimmed_strip (s p : str) : trimmed s p → p = strip s.
Proof.
  intros (pre & post & -> & Hpre & Hpost & Hhd & Hlast).
  unfold strip. rewrite lstrip_app_space by done.
  destruct p as [|c p].
  - simpl. by rewrite lstrip_blank.
  - rewrite lstrip_id by (intros c' [= <-]; by apply Hhd).
    rewrite rstrip_app_space by done. by rewrite rstrip_id.
Qed.

Lemma blank_payload (r : Request) : blank (_data r) = true → payload r = [].
Proof.
  unfold blank, payload. destruct (_data r) as [d|]; [|done].
  apply strip_blank.
Qed.

(** ** Running method bodies *)

Lemma get_handler_ok σ l h :
  heap σ !! l = Some (OHandler h) → get_handler l σ = Some (h, σ).
Proof. intros H. unfold get_handler. by rewrite H. Qed.

Lemma get_request_ok σ l r :
  heap σ !! l = Some (ORequest r) → get_request l σ = Some (r, σ).
Proof. intros H. unfold get_request. by rewrite H. Qed.

Lemma logger_logged lv msg σ : logger lv msg σ = Some (tt, logged σ [(lv, msg)]).
Proof. done. Qed.

Lemma Request_request_id_ok σ l r :
  heap σ !! l = Some (ORequest r) →
  Request.request_id l σ = Some (request_id r, σ).
Proof.
  intros H. unfold Request.request_id, bind. by rewrite (get_request_ok _ _ _ H).
Qed.

Lemma Request_client_ip_ok σ l r :
  heap σ !! l = Some (ORequest r) →
  Request.client_ip l σ = Some (_client_ip r, σ).
Proof.
  intros H. unfold Request.client_ip, bind. by rewrite (get_request_ok _ _ _ H).
Qed.

Lemma Request_data_ok σ l r :
  heap σ !! l = Some (ORequest r) →
  Request.data l σ = Some (payload r, σ).
Proof.
  intros H. unfold Request.data, bind. rewrite (get_request_ok _ _ _ H).
  unfold ret, payload. destruct (_data r) as [[|c d]|]; done.
Qed.

Lemma Handler_has_next_ok σ l h :
  heap σ !! l = Some (OHandler h) →
  Handler.has_next l σ = Some (is_set (next_handler h), σ).
Proof.
  intros H. unfold Handler.has_next, bind. by rewrite (get_handler_ok _ _ _ H).
Qed.

Lemma IPFilteringHandler_blocked_ips_ok σ l b nxt :
  heap σ !! l = Some (OHandler {| cls := IPFiltering b; next_handler := nxt |}) →
  IPFilteringHandler.blocked_ips l σ = Some (b, σ).
Proof.
  intros H. unfold IPFilteringHandler.blocked_ips, bind.
  by rewrite (get_handler_ok _ _ _ H).
Qed.

Lemma CachingHandler_cache_ok σ l c nxt :
  heap σ !! l = Some (OHandler {| cls := Caching c; next_handler := nxt |}) →
  CachingHandler.cache l σ = Some (c, σ).
Proof.
  intros H. unfold CachingHandler.cache, bind.
  by rewrite (get_handler_ok _ _ _ H).
Qed.

Lemma bind_ok {A B} (m : M A) (k : A → M B) σ a σ' :
  m σ = Some (a, σ') → bind m k σ = k a σ'.
Proof. intros H. unfold bind. by rewrite H. Qed.

(** One step of symbolic execution of a method body on a store in which
    [self] and [request] are known. *)
Ltac exec_step Hh Hr :=
  first
    [ erewrite (bind_ok (Request.data _)) by (apply Request_data_ok; exact Hr)
    | erewrite (bind_ok (Request.request_id _))
        by (apply Request_request_id_ok; exact Hr)
    | erewrite (bind_ok (Request.client_ip _))
        by (apply Request_client_ip_ok; exact Hr)
    | erewrite (bind_ok (Handler.has_next _))
        by (apply Handler_has_next_ok; exact Hh)
    | erewrite (bind_ok (get_handler _)) by (apply get_handler_ok; exact Hh)
    | erewrite (bind_ok (IPFilteringHandler.blocked_ips _))
        by (eapply IPFilteringHandler_blocked_ips_ok; exact Hh)
    | erewrite (bind_ok (CachingHandler.cache _))
        by (eapply CachingHandler_cache_ok; exact Hh)
    | erewrite (bind_ok (logger _ _)) by apply logger_logged ].

Ltac reduce := cbn [negb truthy].

Ltac exec Hh Hr := reduce; repeat (exec_step Hh Hr; reduce).

(** *** What each [handle] does, as a function of the two objects *)

Lemma DataValidationHandler_handle_ok σ self request h r :
  heap σ !! self = Some (OHandler h) →
  heap σ !! request = Some (ORequest r) →
  DataValidationHandler.handle self request σ =
    if truthy (payload r) then
      Some (if is_set (next_handler h) then VNone
            else VStr (lit "Validation Complete"),
            logged σ [(INFO, lit "Data validation passed")])
    else
      Some (VStr (lit "Rejected: Invalid data format"),
            logged σ [(WARNING, lit "Invalid data format")]).
Proof.
  intros Hh Hr. unfold DataValidationHandler.handle.
  exec Hh Hr. destruct (truthy (payload r)); exec Hh Hr; [|done].
  by destruct (is_set (next_handler h)).
Qed.

Lemma IPFilteringHandler_handle_ok σ self request b nxt r :
  heap σ !! self =
    Some (OHandler {| cls := IPFiltering b; next_handler := nxt |}) →
  heap σ !! request = Some (ORequest r) →
  IPFilteringHandler.handle self request σ =
    if bool_decide (_client_ip r ∈ b) then
      Some (VStr (lit "Rejected: Blocked IP " ++ _client_ip r),
            logged σ [(WARNING, lit "Blocked IP: " ++ _client_ip r)])
    else
      Some (if is_set nxt then VNone else VStr (lit "IP Check Complete"),
            logged σ [(INFO, lit "IP check passed")]).
Proof.
  intros Hh Hr.
  unfold IPFilteringHandler.handle. exec Hh Hr.
  case_bool_decide; exec Hh Hr; [done|].
  simpl. by destruct (is_set nxt).
Qed.

Lemma CachingHandler_handle_ok σ self request c nxt r :
  heap σ !! self =
    Some (OHandler {| cls := Caching c; next_handler := nxt |}) →
  heap σ !! request = Some (ORequest r) →
  CachingHandler.handle self request σ =
    match c !! request_id r with
    | Some ((_ :: _) as cached_response) =>
        Some (VStr cached_response,
              logged σ [(INFO, lit "Cache hit: " ++ request_id r)])
    | _ =>
        Some (if is_set nxt then VNone else VStr (lit "Cache Check Complete"),
              logged σ [(INFO, lit "Cache miss")])
    end.
Proof.
  intros Hh Hr. unfold CachingHandler.handle. exec Hh Hr.
  destruct (c !! request_id r) as [[|x cached]|]; exec Hh Hr;
    try done; simpl; by destruct (is_set nxt).
Qed.

Lemma FinalProcessingHandler_handle_ok σ self request r :
  heap σ !! request = Some (ORequest r) →
  FinalProcessingHandler.handle self request σ =
    Some (VStr (lit "Processed: " ++ request_id r
                ++ lit " with data '" ++ payload r ++ lit "'"),
          logged σ [(INFO, lit "Processing request " ++ request_id r)]).
Proof.
  intros Hr. unfold FinalProcessingHandler.handle.
  by exec Hr Hr.
Qed.

Lemma handle_dispatch σ self request h :
  heap σ !! self = Some (OHandler h) →
  handle self request σ =
    match cls h with
    | DataValidation => DataValidationHandler.handle self request σ
    | IPFiltering _ => IPFilteringHandler.handle self request σ
    | Caching _ => CachingHandler.handle self request σ
    | FinalProcessing => FinalProcessingHandler.handle self request σ
    end.
Proof.
  intros Hh. unfold handle. rewrite (bind_ok _ _ _ _ _ (get_handler_ok _ _ _ Hh)).
  by destruct (cls h).
Qed.

(** On a store where [self] is a handler and [request] a request,
    [handle] returns, emits at least one log record, and changes nothing
    else; its result and records depend on the two objects only. *)
Lemma handle_effect (h : Handler) (r : Request) :
  ∃ v recs, recs ≠ [] ∧
    ∀ σ self request,
      heap σ !! self = Some (OHandler h) →
      heap σ !! request = Some (ORequest r) →
      handle self request σ = Some (v, logged σ recs).
Proof.
  destruct h as [[| b | c |] nxt].
  - destruct (truthy (payload r)) eqn:E; eexists _, _; (split; [|
      intros σ self request Hh Hr; rewrite (handle_dispatch _ _ _ _ Hh);
      cbn [cls]; rewrite (DataValidationHandler_handle_ok _ _ _ _ _ Hh Hr), E;
      reflexivity]); done.
  - destruct (bool_decide (_client_ip r ∈ b)) eqn:E; eexists _, _; (split; [|
      intros σ self request Hh Hr; rewrite (handle_dispatch _ _ _ _ Hh);
      cbn [cls]; rewrite (IPFilteringHandler_handle_ok _ _ _ _ _ _ Hh Hr), E;
      reflexivity]); done.
  - destruct (c !! request_id r) as [[|x cached]|] eqn:E; eexists _, _; (split; [|
      intros σ self request Hh Hr; rewrite (handle_dispatch _ _ _ _ Hh);
      cbn [cls]; rewrite (CachingHandler_handle_ok _ _ _ _ _ _ Hh Hr), E;
      reflexivity]); done.
  - eexists _, _; (split; [|
      intros σ self request Hh Hr; rewrite (handle_dispatch _ _ _ _ Hh);
      cbn [cls]; rewrite (FinalProcessingHandler_handle_ok _ self _ _ Hr);
      reflexivity]); done.
Qed.

(** ** Requests and the handlers that answer themselves *)

(** C8. A request built from [(rid, raw, origin)] gives back [rid] and
    [origin] unchanged; its payload accessor always returns, leaves the
    store as it was, and yields [raw] without its leading and trailing
    whitespace, or the empty string when [raw] is empty or absent. *)
Theorem C8_request_accessors (rid : str) (raw : option str) (origin : str)
    (σ : state) :
  ∃ req σ' p,
    Request.new rid raw origin σ = Some (req, σ')
    ∧ Request.request_id req σ' = Some (rid, σ')
    ∧ Request.client_ip req σ' = Some (origin, σ')
    ∧ Request.data req σ' = Some (p, σ')
    ∧ match raw with
      | Some ((_ :: _) as s) => trimmed s p
      | _ => p = []
      end.
Proof.
  eexists _, _, _. split; [reflexivity|].
  set (r := {| request_id := rid; _data := raw; _client_ip := origin |}).
  assert (Hr : heap {| heap := <[fresh (dom (heap σ)) := ORequest r]> (heap σ);
                       log := log σ; stdout := stdout σ |}
               !! fresh (dom (heap σ)) = Some (ORequest r))
    by apply lookup_insert_eq.
  split_and!.
  - apply (Request_request_id_ok _ _ _ Hr).
  - apply (Request_client_ip_ok _ _ _ Hr).
  - apply (Request_data_ok _ _ _ Hr).
  - unfold payload. simpl. destruct raw as [[|c s]|]; [done | | done].
    apply strip_trimmed.
Qed.

(** C5. A validation handler given a request whose payload is empty,
    whitespace-only or absent returns "Rejected: Invalid data format",
    whatever the id, the origin and the rest of the chain are; the only
    trace of the call is the validation warning, so no later handler
    ran. *)
Theorem C5_blank_payload_rejected (σ : state) (self request : loc)
    (h : Handler) (r : Request) :
  heap σ !! self = Some (OHandler h) →
  cls h = DataValidation →
  heap σ !! request = Some (ORequest r) →
  blank (_data r) = true →
  handle self request σ =
    Some (VStr (lit "Rejected: Invalid data format"),
          logged σ [(WARNING, lit "Invalid data format")]).
Proof.
  intros Hh Hc Hr Hb.
  rewrite (handle_dispatch _ _ _ _ Hh), Hc.
  rewrite (DataValidationHandler_handle_ok _ _ _ _ _ Hh Hr).
  by rewrite (blank_payload _ Hb).
Qed.

(** The scenario of the specification: [Request("999", "   ", "1.2.3.4")]
    through the standard chain. *)
Lemma C5_blank_payload_rejected_witness :
  ∃ σ,
    setup (lit "999") (Some (lit "   ")) (lit "1.2.3.4") init
      = Some (({| validation_handler := 1; ip_handler := 2;
                  cache_handler := 3; processing_handler := 4 |},
               5)%positive, σ)
    ∧ handle 1 5 σ =
        Some (VStr (lit "Rejected: Invalid data format"),
              logged σ [(WARNING, lit "Invalid data format")]).
Proof.
  eexists. split; [vm_compute; reflexivity|].
  eapply C5_blank_payload_rejected; vm_compute; reflexivity.
Defined.

(** C6. The final handler performs no check: for every request, and
    whether or not a successor is set on it, it returns the formatted
    string built from the id and the normalized payload; the only trace
    of the call is its own log record, so no successor ran. *)
Theorem C6_final_processing_terminal (σ : state) (self request : loc)
    (h : Handler) (r : Request) :
  heap σ !! self = Some (OHandler h) →
  cls h = FinalProcessing →
  heap σ !! request = Some (ORequest r) →
  handle self request σ =
    Some (VStr (lit "Processed: " ++ request_id r
                ++ lit " with data '" ++ payload r ++ lit "'"),
          logged σ [(INFO, lit "Processing request " ++ request_id r)]).
Proof.
  intros Hh Hc Hr.
  rewrite (handle_dispatch _ _ _ _ Hh), Hc.
  apply (FinalProcessingHandler_handle_ok _ _ _ _ Hr).
Qed.

(** A final handler with a successor wired behind it still answers
    itself. *)
Lemma C6_final_processing_terminal_witness :
  ∃ σ,
    (a ← FinalProcessingHandler.new;
     b ← DataValidationHandler.new;
     Handler.set_next a b;;
     Request.new (lit "7") (Some (lit "  x ")) (lit "1.2.3.4")) init
      = Some (3%positive, σ)
    ∧ heap σ !! 1%positive =
        Some (OHandler {| cls := FinalProcessing;
                          next_handler := Some 2%positive |})
    ∧ handle 1 3 σ =
        Some (VStr (lit "Processed: 7 with data 'x'"),
              logged σ [(INFO, lit "Processing request 7")]).
Proof.
  eexists. split; [vm_compute; reflexivity|].
  split; [vm_compute; reflexivity|].
  refine (eq_trans
    (C6_final_processing_terminal _ 1 3
       {| cls := FinalProcessing; next_handler := Some 2%positive |}
       {| request_id := lit "7"; _data := Some (lit "  x ");
          _client_ip := lit "1.2.3.4" |} _ _ _) _);
    vm_compute; reflexivity.
Defined.

(** C9. On a store where [self] is a handler and [request] a request,
    two successive calls of [handle] both return, with the same result,
    and neither changes any object of the store: the request, the
    configuration of a handler or a successor link. *)
Theorem C9_handle_repeatable (σ : state) (self request : loc)
    (h : Handler) (r : Request) :
  heap σ !! self = Some (OHandler h) →
  heap σ !! request = Some (ORequest r) →
  ∃ v σ1 σ2,
    handle self request σ = Some (v, σ1)
    ∧ handle self request σ1 = Some (v, σ2)
    ∧ heap σ1 = heap σ
    ∧ heap σ2 = heap σ.
Proof.
  intros Hh Hr.
  destruct (handle_effect h r) as (v & recs & _ & Hrun).
  exists v, (logged σ recs), (logged (logged σ recs) recs).
  split_and!; [by apply Hrun | by apply Hrun | done | done].
Qed.

(** The cache handler of the standard chain, called twice. *)
Lemma C9_handle_repeatable_witness :
  ∃ σ,
    setup (lit "200") (Some (lit "Order: 5 units")) (lit "192.168.1.5") init
      = Some (({| validation_handler := 1; ip_handler := 2;
                  cache_handler := 3; processing_handler := 4 |},
               5)%positive, σ)
    ∧ ∃ v σ1 σ2,
        handle 3 5 σ = Some (v, σ1)
        ∧ handle 3 5 σ1 = Some (v, σ2)
        ∧ heap σ1 = heap σ
        ∧ heap σ2 = heap σ.
Proof.
  eexists. split; [vm_compute; reflexivity|].
  eapply (C9_handle_repeatable _ 3 5); vm_compute; reflexivity.
Defined.

(** ** [set_next] *)

Lemma set_next_ok σ a b ha :
  heap σ !! a = Some (OHandler ha) →
  Handler.set_next a b σ =
    Some (b, {| heap := <[a := linked ha b]> (heap σ);
                log := log σ; stdout := stdout σ |}).
Proof.
  intros Ha. unfold Handler.set_next.
  by rewrite (bind_ok _ _ _ _ _ (get_handler_ok _ _ _ Ha)).
Qed.

(** C7. [a.set_next(b)] stores [b] as the successor of [a], touches
    nothing else and returns [b]; hence for distinct [a] and [b] the
    fluent call [a.set_next(b).set_next(c)] links [a] to [b] and [b] to
    [c]; and a second [set_next] on [a] overwrites the first: the store
    is the one a single [a.set_next(c)] would have produced. *)
Theorem C7_set_next (σ : state) (a b : loc) (ha : Handler) :
  heap σ !! a = Some (OHandler ha) →
  Handler.set_next a b σ =
    Some (b, {| heap := <[a := linked ha b]> (heap σ);
                log := log σ; stdout := stdout σ |})
  ∧ (∀ (hb : Handler) (c : loc),
       a ≠ b →
       heap σ !! b = Some (OHandler hb) →
       ∃ σ',
         (l ← Handler.set_next a b; Handler.set_next l c) σ = Some (c, σ')
         ∧ heap σ' !! a = Some (linked ha b)
         ∧ heap σ' !! b = Some (linked hb c))
  ∧ (∀ c : loc,
       (Handler.set_next a b;; Handler.set_next a c) σ
         = Handler.set_next a c σ
       ∧ ∃ σ',
           Handler.set_next a c σ = Some (c, σ')
           ∧ heap σ' !! a = Some (linked ha c)).
Proof.
  intros Ha. split_and!.
  - by apply set_next_ok.
  - intros hb c Hab Hb. eexists.
    rewrite (bind_ok _ _ _ _ _ (set_next_ok _ _ b _ Ha)).
    split_and!.
    + apply set_next_ok. simpl. by rewrite lookup_insert_ne.
    + simpl. rewrite lookup_insert_ne by done. apply lookup_insert_eq.
    + simpl. apply lookup_insert_eq.
  - intros c. split.
    + rewrite (bind_ok _ _ _ _ _ (set_next_ok _ _ b _ Ha)).
      rewrite (set_next_ok _ _ c _ Ha).
      erewrite set_next_ok by (simpl; apply lookup_insert_eq).
      simpl. by rewrite insert_insert_eq.
    + eexists. split; [by apply set_next_ok|]. simpl. apply lookup_insert_eq.
Qed.

(** Three fresh handlers [1], [2], [3]. *)
Lemma C7_set_next_witness :
  ∃ σ,
    (a ← DataValidationHandler.new;
     b ← IPFilteringHandler.new None;
     FinalProcessingHandler.new) init = Some (3%positive, σ)
    ∧ Handler.set_next 1 2 σ =
        Some (2%positive,
              {| heap := <[1%positive :=
                             OHandler {| cls := DataValidation;
                                         next_handler := Some 2%positive |}]>
                           (heap σ);
                 log := log σ; stdout := stdout σ |})
    ∧ (∃ σ',
         (l ← Handler.set_next 1 2; Handler.set_next l 3) σ
           = Some (3%positive, σ')
         ∧ heap σ' !! 1%positive =
             Some (OHandler {| cls := DataValidation;
                               next_handler := Some 2%positive |})
         ∧ heap σ' !! 2%positive =
             Some (OHandler
                     {| cls := IPFiltering
                                 IPFilteringHandler.default_blocked_ips;
                        next_handler := Some 3%positive |}))
    ∧ (Handler.set_next 1 2;; Handler.set_next 1 3) σ
        = Handler.set_next 1 3 σ.
Proof.
  eexists. split; [vm_compute; reflexivity|].
  match goal with |- context [Handler.set_next 1 2 ?s = _] =>
    assert (Ha : heap s !! 1%positive =
                 Some (OHandler {| cls := DataValidation;
                                   next_handler := None |}))
      by (vm_compute; reflexivity);
    pose proof (C7_set_next s 1 2 _ Ha) as (H1 & H2 & H3)
  end.
  split; [exact H1|]. split.
  - destruct (H2 {| cls := IPFiltering IPFilteringHandler.default_blocked_ips;
                    next_handler := None |} 3%positive)
      as (σ' & Hrun & Hl1 & Hl2); [done | vm_compute; reflexivity |].
    exists σ'. split_and!; [exact Hrun | exact Hl1 | exact Hl2].
  - apply (H3 3%positive).
Defined.

(** ** Default configuration *)

Lemma Handler_new_ok (c : handler_class) (σ : state) :
  ∃ σ',
    Handler.new c σ = Some (fresh (dom (heap σ)), σ')
    ∧ heap σ' !! fresh (dom (heap σ)) =
        Some (OHandler {| cls := c; next_handler := None |}).
Proof. eexists. split; [reflexivity|]. simpl. apply lookup_insert_eq. Qed.

(** C10. Built from an empty blocked set, an IP filter holds the default
    blocklist of two addresses; built from an empty mapping, a caching
    handler holds the default cache of one entry.  Whatever argument the
    constructors receive, the configuration they install is not empty. *)
Theorem C10_empty_configuration_replaced (σ : state) :
  let l := fresh (dom (heap σ)) in
  (∃ σ',
     IPFilteringHandler.new (Some ∅) σ = Some (l, σ')
     ∧ heap σ' !! l =
         Some (OHandler
                 {| cls := IPFiltering IPFilteringHandler.default_blocked_ips;
                    next_handler := None |}))
  ∧ size IPFilteringHandler.default_blocked_ips = 2%nat
  ∧ (∃ σ',
       CachingHandler.new (Some ∅) σ = Some (l, σ')
       ∧ heap σ' !! l =
           Some (OHandler
                   {| cls := Caching CachingHandler.default_cache;
                      next_handler := None |}))
  ∧ size CachingHandler.default_cache = 1%nat
  ∧ (∀ arg, ∃ σ' b,
       IPFilteringHandler.new arg σ = Some (l, σ')
       ∧ heap σ' !! l =
           Some (OHandler {| cls := IPFiltering b; next_handler := None |})
       ∧ b ≠ ∅)
  ∧ (∀ arg, ∃ σ' c,
       CachingHandler.new arg σ = Some (l, σ')
       ∧ heap σ' !! l =
           Some (OHandler {| cls := Caching c; next_handler := None |})
       ∧ c ≠ ∅).
Proof.
  assert (Hb : IPFilteringHandler.default_blocked_ips ≠ ∅).
  { intros H. apply (f_equal size) in H. vm_compute in H. discriminate. }
  assert (Hc : CachingHandler.default_cache ≠ ∅).
  { intros H. apply (f_equal size) in H. vm_compute in H. discriminate. }
  intros l. split_and!.
  - unfold IPFilteringHandler.new. rewrite decide_True by done.
    apply Handler_new_ok.
  - vm_compute. reflexivity.
  - unfold CachingHandler.new. rewrite decide_True by done.
    apply Handler_new_ok.
  - vm_compute. reflexivity.
  - intros arg. unfold IPFilteringHandler.new.
    destruct (Handler_new_ok
      (IPFiltering match arg with
                   | Some b => if decide (b = ∅)
                               then IPFilteringHandler.default_blocked_ips
                               else b
                   | None => IPFilteringHandler.default_blocked_ips
                   end) σ) as (σ' & Hnew & Hl).
    exists σ'. eexists. split_and!; [exact Hnew | exact Hl |].
    destruct arg as [b|]; [|done]. by destruct (decide (b = ∅)).
  - intros arg. unfold CachingHandler.new.
    destruct (Handler_new_ok
      (Caching match arg with
               | Some c => if decide (c = ∅)
                           then CachingHandler.default_cache
                           else c
               | None => CachingHandler.default_cache
               end) σ) as (σ' & Hnew & Hl).
    exists σ'. eexists. split_and!; [exact Hnew | exact Hl |].
    destruct arg as [c|]; [|done]. by destruct (decide (c = ∅)).
Qed.

(** ** Forwarding to the successor *)

(** A handler that has a successor and whose check passes hands the
    request to [Handler.handle], the abstract method, instead of to the
    successor: the call returns [None] whatever the successor is. *)
Lemma handle_with_successor_returns_None σ self request h r n :
  heap σ !! self = Some (OHandler h) →
  heap σ !! request = Some (ORequest r) →
  next_handler h = Some n →
  passes h r = true →
  ∃ recs, handle self request σ = Some (VNone, logged σ recs).
Proof.
  intros Hh Hr Hn Hp. rewrite (handle_dispatch _ _ _ _ Hh).
  destruct h as [c nxt]. simpl in Hn. subst nxt.
  unfold passes in Hp. destruct c as [| b | c |]; simpl in Hp |- *.
  - rewrite (DataValidationHandler_handle_ok _ _ _ _ _ Hh Hr), Hp.
    by eexists.
  - rewrite (IPFilteringHandler_handle_ok _ _ _ _ _ _ Hh Hr).
    apply negb_true_iff in Hp. rewrite Hp. by eexists.
  - rewrite (CachingHandler_handle_ok _ _ _ _ _ _ Hh Hr).
    apply bool_decide_eq_true in Hp. rewrite Hp. by eexists.
  - discriminate.
Qed.

(** C1. Each of the three checking handlers, wired in front of a final
    handler and given [Request("200", "Order: 5 units", "192.168.1.5")],
    which passes its check, returns [None], while the successor's own
    [handle] on that request returns the processed string. *)
Theorem C1_forwarding_returns_None :
  run (forward_demo DataValidationHandler.new)
    = Some (VNone, VStr (lit "Processed: 200 with data 'Order: 5 units'"))
  ∧ run (forward_demo (IPFilteringHandler.new None))
    = Some (VNone, VStr (lit "Processed: 200 with data 'Order: 5 units'"))
  ∧ run (forward_demo (CachingHandler.new None))
    = Some (VNone, VStr (lit "Processed: 200 with data 'Order: 5 units'")).
Proof. split_and!; vm_compute; reflexivity. Qed.

(** C2. [Request("200", "Order: 5 units", "192.168.1.5")] handed to the
    head of the standard chain comes back as [None]; the processed string
    is what the final handler returns when it is called directly. *)
Theorem C2_standard_chain_request_200 :
  run (send validation_handler
         (lit "200") (Some (lit "Order: 5 units")) (lit "192.168.1.5"))
    = Some VNone
  ∧ run (send processing_handler
           (lit "200") (Some (lit "Order: 5 units")) (lit "192.168.1.5"))
    = Some (VStr (lit "Processed: 200 with data 'Order: 5 units'")).
Proof. split; vm_compute; reflexivity. Qed.

(** C3. [Request("123", "Cached content", "192.168.1.8")] handed to the
    head of the standard chain comes back as [None]; the cached response
    is what the caching handler returns when it is called directly. *)
Theorem C3_standard_chain_request_123 :
  run (send validation_handler
         (lit "123") (Some (lit "Cached content")) (lit "192.168.1.8"))
    = Some VNone
  ∧ run (send cache_handler
           (lit "123") (Some (lit "Cached content")) (lit "192.168.1.8"))
    = Some (VStr (lit "Cached Response for request 123")).
Proof. split; vm_compute; reflexivity. Qed.

(** C4. [Request("201", "Order: 10 units", "192.168.0.10")] handed to the
    head of the standard chain comes back as [None]; the rejection is
    what the IP filter returns when it is called directly. *)
Theorem C4_standard_chain_request_201 :
  run (send validation_handler
         (lit "201") (Some (lit "Order: 10 units")) (lit "192.168.0.10"))
    = Some VNone
  ∧ run (send ip_handler
           (lit "201") (Some (lit "Order: 10 units")) (lit "192.168.0.10"))
    = Some (VStr (lit "Rejected: Blocked IP 192.168.0.10")).
Proof. split; vm_compute; reflexivity. Qed.

(** What the script prints: every request of its list passes the
    validation check, so every answer is [None]. *)
Example main_stdout :
  stdout <$> (snd <$> main init)
    = Some [ [10] ++ lit "Processing 200:"; lit "None";
             [10] ++ lit "Processing 201:"; lit "None";
             [10] ++ lit "Processing 123:"; lit "None" ].
Proof. vm_compute. reflexivity. Qed.

(** * Further properties of the handlers *)

Lemma handle_outcome σ self request h r :
  heap σ !! self = Some (OHandler h) →
  heap σ !! request = Some (ORequest r) →
  handle self request σ =
    Some ((outcome h r).1, logged σ [(outcome h r).2]).
Proof.
  intros Hh Hr. rewrite (handle_dispatch _ _ _ _ Hh). unfold outcome.
  destruct h as [[| b | c |] nxt]; cbn [cls next_handler].
  - rewrite (DataValidationHandler_handle_ok _ _ _ _ _ Hh Hr).
    by destruct (truthy (payload r)).
  - rewrite (IPFilteringHandler_handle_ok _ _ _ _ _ _ Hh Hr).
    by case_bool_decide.
  - rewrite (CachingHandler_handle_ok _ _ _ _ _ _ Hh Hr).
    by destruct (c !! request_id r) as [[|x cached]|].
  - by rewrite (FinalProcessingHandler_handle_ok _ self _ _ Hr).
Qed.

Lemma strip_nil_blank (d : str) : strip d = [] → forallb isspace d = true.
Proof.
  intros H. destruct (strip_trimmed d) as (pre & post & Hd & Hpre & Hpost & _).
  rewrite H in Hd. rewrite Hd, forallb_app, Hpre. simpl. exact Hpost.
Qed.

Lemma payload_nil_blank (r : Request) : payload r = [] ↔ blank (_data r) = true.
Proof.
  split; [|apply blank_payload].
  unfold payload, blank. destruct (_data r) as [d|]; [|done].
  apply strip_nil_blank.
Qed.

Lemma truthy_false (s : str) : truthy s = false ↔ s = [].
Proof. by destruct s. Qed.

(** X1. A checking handler that has no successor and whose check lets
    the request through answers with the name of its own stage:
    "Validation Complete", "IP Check Complete" or "Cache Check
    Complete", after one INFO record. *)
Theorem last_handler_completes (σ : state) (self request : loc)
    (h : Handler) (r : Request) :
  heap σ !! self = Some (OHandler h) →
  next_handler h = None →
  heap σ !! request = Some (ORequest r) →
  continues h r = true →
  ∃ msg,
    handle self request σ =
      Some (VStr match cls h with
                 | DataValidation => lit "Validation Complete"
                 | IPFiltering _ => lit "IP Check Complete"
                 | _ => lit "Cache Check Complete"
                 end,
            logged σ [(INFO, msg)]).
Proof.
  intros Hh Hn Hr Hc. rewrite (handle_outcome _ _ _ _ _ Hh Hr).
  unfold outcome, continues in *. rewrite Hn.
  destruct (cls h) as [| b | c |]; cbn [is_set].
  - rewrite Hc. by eexists.
  - apply negb_true_iff in Hc. rewrite Hc. by eexists.
  - destruct (c !! request_id r) as [[|x cached]|]; try done; by eexists.
  - done.
Qed.

(** A caching handler on its own, asked for an id it does not hold. *)
Lemma last_handler_completes_witness :
  ∃ σ,
    (a ← CachingHandler.new None;
     Request.new (lit "200") (Some (lit "Order: 5 units"))
                 (lit "192.168.1.5")) init = Some (2%positive, σ)
    ∧ ∃ msg,
        handle 1 2 σ =
          Some (VStr (lit "Cache Check Complete"), logged σ [(INFO, msg)]).
Proof.
  eexists. split; [vm_compute; reflexivity|].
  match goal with |- ∃ _, handle _ _ ?s = _ =>
    destruct (last_handler_completes s 1 2
                {| cls := Caching CachingHandler.default_cache;
                   next_handler := None |}
                {| request_id := lit "200";
                   _data := Some (lit "Order: 5 units");
                   _client_ip := lit "192.168.1.5" |}
                ltac:(vm_compute; reflexivity) eq_refl
                ltac:(vm_compute; reflexivity)
                ltac:(vm_compute; reflexivity))
      as [msg Hm]
  end.
  exists msg. exact Hm.
Defined.

(** X2. The IP filter, called on any request, rejects it exactly when
    its origin is in the blocked set, whatever the payload, the id and
    the successor are; a rejection leaves one WARNING record naming the
    origin. *)
Theorem ip_filter_rejects_exactly_blocked (σ : state) (self request : loc)
    (b : gset str) (nxt : option loc) (r : Request) :
  heap σ !! self =
    Some (OHandler {| cls := IPFiltering b; next_handler := nxt |}) →
  heap σ !! request = Some (ORequest r) →
  ∃ v σ',
    handle self request σ = Some (v, σ')
    ∧ (v = VStr (lit "Rejected: Blocked IP " ++ _client_ip r)
       ↔ _client_ip r ∈ b)
    ∧ (_client_ip r ∈ b →
       σ' = logged σ [(WARNING, lit "Blocked IP: " ++ _client_ip r)]).
Proof.
  intros Hh Hr. rewrite (handle_outcome _ _ _ _ _ Hh Hr).
  eexists _, _. split; [reflexivity|]. unfold outcome. cbn [cls next_handler].
  case_bool_decide as Hin; cbn [fst snd].
  - split; [done|]. by intros _.
  - split; [|done]. split; [|done].
    destruct (is_set nxt); [done|]. by intros [= Heq].
Qed.

Lemma ip_filter_rejects_exactly_blocked_witness :
  ∃ σ,
    (a ← IPFilteringHandler.new (Some {[ lit "8.8.8.8" ]});
     Request.new (lit "1") None (lit "8.8.8.8")) init = Some (2%positive, σ)
    ∧ ∃ v σ',
        handle 1 2 σ = Some (v, σ')
        ∧ (v = VStr (lit "Rejected: Blocked IP " ++ lit "8.8.8.8")
           ↔ lit "8.8.8.8" ∈ ({[ lit "8.8.8.8" ]} : gset str))
        ∧ (lit "8.8.8.8" ∈ ({[ lit "8.8.8.8" ]} : gset str) →
           σ' = logged σ [(WARNING, lit "Blocked IP: " ++ lit "8.8.8.8")]).
Proof.
  eexists. split; [vm_compute; reflexivity|].
  pose (b := ({[ lit "8.8.8.8" ]} : gset str)).
  apply (ip_filter_rejects_exactly_blocked _ 1 2 b None
           {| request_id := lit "1"; _data := None;
              _client_ip := lit "8.8.8.8" |});
    vm_compute; reflexivity.
Defined.

(** X3. The validation handler, called on any request, rejects it
    exactly when its raw payload is empty, whitespace-only or absent. *)
Theorem validation_rejects_exactly_blank (σ : state) (self request : loc)
    (h : Handler) (r : Request) :
  heap σ !! self = Some (OHandler h) →
  cls h = DataValidation →
  heap σ !! request = Some (ORequest r) →
  ∃ v σ',
    handle self request σ = Some (v, σ')
    ∧ (v = VStr (lit "Rejected: Invalid data format")
       ↔ blank (_data r) = true).
Proof.
  intros Hh Hc Hr. rewrite (handle_outcome _ _ _ _ _ Hh Hr).
  eexists _, _. split; [reflexivity|]. unfold outcome. rewrite Hc.
  rewrite <- payload_nil_blank, <- truthy_false.
  destruct (truthy (payload r)); cbn [fst]; [|done].
  split; [|done]. by destruct (is_set (next_handler h)).
Qed.

Lemma validation_rejects_exactly_blank_witness :
  ∃ σ,
    (a ← DataValidationHandler.new;
     Request.new (lit "1") (Some (lit " ok ")) (lit "8.8.8.8")) init
      = Some (2%positive, σ)
    ∧ ∃ v σ',
        handle 1 2 σ = Some (v, σ')
        ∧ (v = VStr (lit "Rejected: Invalid data format")
           ↔ blank (Some (lit " ok ")) = true).
Proof.
  eexists. split; [vm_compute; reflexivity|].
  match goal with |- ∃ _ _, handle _ _ ?s = _ ∧ _ =>
    exact (validation_rejects_exactly_blank s 1 2
             {| cls := DataValidation; next_handler := None |}
             {| request_id := lit "1"; _data := Some (lit " ok ");
                _client_ip := lit "8.8.8.8" |}
             ltac:(vm_compute; reflexivity) eq_refl
             ltac:(vm_compute; reflexivity))
  end.
Defined.

(** X4. The caching handler, called on a request whose id it holds with
    a non-empty response, returns that response whatever its successor
    and the payload are, after one INFO record naming the id. *)
Theorem cache_hit_returns_value (σ : state) (self request : loc)
    (c : gmap str str) (nxt : option loc) (r : Request) (v : str) :
  heap σ !! self =
    Some (OHandler {| cls := Caching c; next_handler := nxt |}) →
  heap σ !! request = Some (ORequest r) →
  c !! request_id r = Some v →
  v ≠ [] →
  handle self request σ =
    Some (VStr v, logged σ [(INFO, lit "Cache hit: " ++ request_id r)]).
Proof.
  intros Hh Hr Hc Hv. rewrite (handle_outcome _ _ _ _ _ Hh Hr).
  unfold outcome. cbn [cls]. rewrite Hc. by destruct v.
Qed.

Lemma cache_hit_returns_value_witness :
  ∃ σ,
    (a ← CachingHandler.new (Some {[ lit "7" := lit "seven" ]});
     b ← FinalProcessingHandler.new;
     Handler.set_next a b;;
     Request.new (lit "7") None (lit "8.8.8.8")) init = Some (3%positive, σ)
    ∧ handle 1 3 σ =
        Some (VStr (lit "seven"), logged σ [(INFO, lit "Cache hit: 7")]).
Proof.
  eexists. split; [vm_compute; reflexivity|].
  pose (c := ({[ lit "7" := lit "seven" ]} : gmap str str)).
  refine (eq_trans
    (cache_hit_returns_value _ 1 3 c (Some 2%positive)
       {| request_id := lit "7"; _data := None; _client_ip := lit "8.8.8.8" |}
       (lit "seven") _ _ _ _) _);
    [vm_compute; reflexivity .. | | vm_compute; reflexivity]; done.
Defined.

(** X5. A key that the cache holds with the empty string is treated as
    a miss: the handler logs "Cache miss" and goes on to its last line,
    as it does for a key the cache does not hold. *)
Theorem cached_empty_string_is_a_miss (σ : state) (self request : loc)
    (c : gmap str str) (nxt : option loc) (r : Request) :
  heap σ !! self =
    Some (OHandler {| cls := Caching c; next_handler := nxt |}) →
  heap σ !! request = Some (ORequest r) →
  c !! request_id r = Some [] ∨ c !! request_id r = None →
  handle self request σ =
    Some (if is_set nxt then VNone else VStr (lit "Cache Check Complete"),
          logged σ [(INFO, lit "Cache miss")]).
Proof.
  intros Hh Hr Hc. rewrite (handle_outcome _ _ _ _ _ Hh Hr).
  unfold outcome. cbn [cls next_handler]. by destruct Hc as [-> | ->].
Qed.

Lemma cached_empty_string_is_a_miss_witness :
  ∃ σ,
    (a ← CachingHandler.new (Some {[ lit "7" := [] ]});
     Request.new (lit "7") None (lit "8.8.8.8")) init = Some (2%positive, σ)
    ∧ handle 1 2 σ =
        Some (VStr (lit "Cache Check Complete"),
              logged σ [(INFO, lit "Cache miss")]).
Proof.
  eexists. split; [vm_compute; reflexivity|].
  pose (c := ({[ lit "7" := [] ]} : gmap str str)).
  apply (cached_empty_string_is_a_miss _ 1 2 c None
           {| request_id := lit "7"; _data := None;
              _client_ip := lit "8.8.8.8" |});
    [vm_compute; reflexivity .. | left; vm_compute; reflexivity].
Defined.

(** X6. [handle] returns [None] exactly when the handler has a successor
    and its check lets the request through; so the final handler, a
    handler without successor, a rejection and a cache hit never give
    [None]. *)
Theorem handle_None_iff_forwarding (σ : state) (self request : loc)
    (h : Handler) (r : Request) :
  heap σ !! self = Some (OHandler h) →
  heap σ !! request = Some (ORequest r) →
  ∃ v σ',
    handle self request σ = Some (v, σ')
    ∧ (v = VNone
       ↔ is_set (next_handler h) = true ∧ continues h r = true).
Proof.
  intros Hh Hr. rewrite (handle_outcome _ _ _ _ _ Hh Hr).
  eexists _, _. split; [reflexivity|]. unfold outcome, continues.
  destruct (cls h) as [| b | c |]; cbn [fst].
  - destruct (truthy (payload r)), (is_set (next_handler h));
      (split; [intros ? | intros [? ?]]; done).
  - case_bool_decide; destruct (is_set (next_handler h));
      (split; [intros ? | intros [? ?]]; done).
  - destruct (c !! request_id r) as [[|x cached]|],
      (is_set (next_handler h)); (split; [intros ? | intros [? ?]]; done).
  - split; [intros ? | intros [? ?]]; done.
Qed.

(** The IP filter of the standard chain lets the request through and
    has a successor. *)
Lemma handle_None_iff_forwarding_witness :
  ∃ σ,
    setup (lit "200") (Some (lit "Order: 5 units")) (lit "192.168.1.5") init
      = Some (({| validation_handler := 1; ip_handler := 2;
                  cache_handler := 3; processing_handler := 4 |},
               5)%positive, σ)
    ∧ ∃ σ', handle 2 5 σ = Some (VNone, σ').
Proof.
  eexists. split; [vm_compute; reflexivity|].
  match goal with |- ∃ _, handle _ _ ?s = _ =>
    destruct (handle_None_iff_forwarding s 2 5
                {| cls := IPFiltering IPFilteringHandler.default_blocked_ips;
                   next_handler := Some 3%positive |}
                {| request_id := lit "200";
                   _data := Some (lit "Order: 5 units");
                   _client_ip := lit "192.168.1.5" |}
                ltac:(vm_compute; reflexivity)
                ltac:(vm_compute; reflexivity))
      as (v & σ' & Hrun & Hiff)
  end.
  exists σ'. rewrite Hrun.
  assert (Hv : v = VNone) by (apply Hiff; split; vm_compute; reflexivity).
  by rewrite Hv.
Defined.

(** X7. Every call of [handle] appends exactly one log record and
    prints nothing; its result is never the empty string; and the record
    is a WARNING only when the result is a rejection. *)
Theorem handle_logs_one_record (σ : state) (self request : loc)
    (h : Handler) (r : Request) :
  heap σ !! self = Some (OHandler h) →
  heap σ !! request = Some (ORequest r) →
  ∃ v lv msg,
    handle self request σ = Some (v, logged σ [(lv, msg)])
    ∧ v ≠ VStr []
    ∧ (lv = WARNING → ∃ reason, v = VStr (lit "Rejected: " ++ reason)).
Proof.
  intros Hh Hr. rewrite (handle_outcome _ _ _ _ _ Hh Hr).
  exists (outcome h r).1, (outcome h r).2.1, (outcome h r).2.2.
  split; [by destruct (outcome h r) as [v [lv msg]]|].
  unfold outcome. destruct (cls h) as [| b | c |].
  - destruct (truthy (payload r)); cbn [fst snd].
    + split; [by destruct (is_set (next_handler h))|done].
    + split; [done|]. intros _. by exists (lit "Invalid data format").
  - case_bool_decide; cbn [fst snd].
    + split; [done|]. intros _. by exists (lit "Blocked IP " ++ _client_ip r).
    + split; [by destruct (is_set (next_handler h))|done].
  - destruct (c !! request_id r) as [[|x cached]|]; cbn [fst snd];
      (split; [by destruct (is_set (next_handler h))|done]).
  - cbn [fst snd]. split; done.
Qed.

Lemma handle_logs_one_record_witness :
  ∃ σ,
    setup (lit "201") (Some (lit "Order: 10 units")) (lit "192.168.0.10") init
      = Some (({| validation_handler := 1; ip_handler := 2;
                  cache_handler := 3; processing_handler := 4 |},
               5)%positive, σ)
    ∧ ∃ v lv msg,
        handle 2 5 σ = Some (v, logged σ [(lv, msg)])
        ∧ v ≠ VStr []
        ∧ (lv = WARNING → ∃ reason, v = VStr (lit "Rejected: " ++ reason)).
Proof.
  eexists. split; [vm_compute; reflexivity|].
  eapply (handle_logs_one_record _ 2 5); vm_compute; reflexivity.
Defined.

(** X8. Which handler is wired as the successor has no influence on the
    answer: after [a.set_next(b)] and after [a.set_next(c)], [a.handle]
    returns the same value for the same request. *)
Theorem successor_identity_irrelevant (σ : state) (a request b c : loc)
    (ha : Handler) (r : Request) :
  heap σ !! a = Some (OHandler ha) →
  heap σ !! request = Some (ORequest r) →
  ∃ v,
    fst <$> (Handler.set_next a b;; handle a request) σ = Some v
    ∧ fst <$> (Handler.set_next a c;; handle a request) σ = Some v.
Proof.
  intros Ha Hr.
  assert (Hne : a ≠ request) by (intros ->; congruence).
  exists (outcome {| cls := cls ha; next_handler := Some b |} r).1.
  split.
  - rewrite (bind_ok _ _ _ _ _ (set_next_ok _ _ b _ Ha)).
    erewrite handle_outcome;
      [reflexivity | apply lookup_insert_eq
      | simpl; rewrite lookup_insert_ne by done; exact Hr].
  - rewrite (bind_ok _ _ _ _ _ (set_next_ok _ _ c _ Ha)).
    erewrite (handle_outcome _ _ _ {| cls := cls ha; next_handler := Some c |});
      [reflexivity | apply lookup_insert_eq
      | simpl; rewrite lookup_insert_ne by done; exact Hr].
Qed.

Lemma successor_identity_irrelevant_witness :
  ∃ σ,
    setup (lit "200") (Some (lit "Order: 5 units")) (lit "192.168.1.5") init
      = Some (({| validation_handler := 1; ip_handler := 2;
                  cache_handler := 3; processing_handler := 4 |},
               5)%positive, σ)
    ∧ ∃ v,
        fst <$> (Handler.set_next 1 2;; handle 1 5) σ = Some v
        ∧ fst <$> (Handler.set_next 1 4;; handle 1 5) σ = Some v.
Proof.
  eexists. split; [vm_compute; reflexivity|].
  eapply (successor_identity_irrelevant _ 1 5 2 4); vm_compute; reflexivity.
Defined.

(** ** Construction and wiring *)

Lemma alloc_ok (o : obj) (σ : state) :
  ∃ l,
    alloc o σ = Some (l, {| heap := <[l := o]> (heap σ);
                            log := log σ; stdout := stdout σ |})
    ∧ heap σ !! l = None.
Proof.
  exists (fresh (dom (heap σ))). split; [reflexivity|].
  apply not_elem_of_dom, is_fresh.
Qed.

Lemma insert_fresh_preserves (m : gmap loc obj) (l l' : loc) (o o' : obj) :
  m !! l = None → m !! l' = Some o' → <[l := o]> m !! l' = Some o'.
Proof. intros Hl Hl'. rewrite lookup_insert_ne; [done | congruence]. Qed.

(** X9. A non-empty blocked set or cache mapping given to a constructor
    is installed as it is; the new handler has no successor, and no
    object that was already in the store is touched. *)
Theorem nonempty_configuration_installed (σ : state) (b : gset str)
    (c : gmap str str) :
  b ≠ ∅ →
  c ≠ ∅ →
  (∃ l σ',
     IPFilteringHandler.new (Some b) σ = Some (l, σ')
     ∧ heap σ' !! l =
         Some (OHandler {| cls := IPFiltering b; next_handler := None |})
     ∧ ∀ l' o, heap σ !! l' = Some o → heap σ' !! l' = Some o)
  ∧ (∃ l σ',
       CachingHandler.new (Some c) σ = Some (l, σ')
       ∧ heap σ' !! l =
           Some (OHandler {| cls := Caching c; next_handler := None |})
       ∧ ∀ l' o, heap σ !! l' = Some o → heap σ' !! l' = Some o).
Proof.
  intros Hb Hc. split.
  - unfold IPFilteringHandler.new, Handler.new. rewrite decide_False by done.
    destruct (alloc_ok (OHandler {| cls := IPFiltering b;
                                    next_handler := None |}) σ)
      as (l & Hal & Hfresh).
    eexists l, _. split_and!; [exact Hal | apply lookup_insert_eq |].
    intros l' o Hl'. by apply insert_fresh_preserves.
  - unfold CachingHandler.new, Handler.new. rewrite decide_False by done.
    destruct (alloc_ok (OHandler {| cls := Caching c;
                                    next_handler := None |}) σ)
      as (l & Hal & Hfresh).
    eexists l, _. split_and!; [exact Hal | apply lookup_insert_eq |].
    intros l' o Hl'. by apply insert_fresh_preserves.
Qed.

Lemma nonempty_configuration_installed_witness :
  (∃ l σ',
     IPFilteringHandler.new (Some {[ lit "8.8.8.8" ]}) init = Some (l, σ')
     ∧ heap σ' !! l =
         Some (OHandler {| cls := IPFiltering {[ lit "8.8.8.8" ]};
                           next_handler := None |})
     ∧ ∀ l' o, heap init !! l' = Some o → heap σ' !! l' = Some o)
  ∧ (∃ l σ',
       CachingHandler.new (Some {[ lit "7" := lit "seven" ]}) init
         = Some (l, σ')
       ∧ heap σ' !! l =
           Some (OHandler {| cls := Caching {[ lit "7" := lit "seven" ]};
                             next_handler := None |})
       ∧ ∀ l' o, heap init !! l' = Some o → heap σ' !! l' = Some o).
Proof.
  apply nonempty_configuration_installed.
  - intros H. apply (f_equal size) in H. vm_compute in H. discriminate.
  - intros H. apply (f_equal size) in H. vm_compute in H. discriminate.
Defined.

(** X10. Whatever the store holds already, the wiring of the script
    returns four distinct new handlers linked validation -> IP filter ->
    cache -> final, the final one without successor, the IP filter and
    the cache with their default configuration; every object that was
    in the store before is left as it was, and nothing is logged or
    printed. *)
Theorem build_chain_wires_linear_chain (σ : state) :
  ∃ hs σ',
    build_chain σ = Some (hs, σ')
    ∧ heap σ' !! validation_handler hs =
        Some (OHandler {| cls := DataValidation;
                          next_handler := Some (ip_handler hs) |})
    ∧ heap σ' !! ip_handler hs =
        Some (OHandler
                {| cls := IPFiltering IPFilteringHandler.default_blocked_ips;
                   next_handler := Some (cache_handler hs) |})
    ∧ heap σ' !! cache_handler hs =
        Some (OHandler {| cls := Caching CachingHandler.default_cache;
                          next_handler := Some (processing_handler hs) |})
    ∧ heap σ' !! processing_handler hs =
        Some (OHandler {| cls := FinalProcessing; next_handler := None |})
    ∧ NoDup [validation_handler hs; ip_handler hs; cache_handler hs;
             processing_handler hs]
    ∧ (∀ l o, heap σ !! l = Some o → heap σ' !! l = Some o)
    ∧ log σ' = log σ
    ∧ stdout σ' = stdout σ.
Proof.
  unfold build_chain, DataValidationHandler.new, IPFilteringHandler.new,
    CachingHandler.new, FinalProcessingHandler.new, Handler.new.
  destruct (alloc_ok (OHandler {| cls := DataValidation;
                                  next_handler := None |}) σ)
    as (l1 & Ha1 & Hf1).
  rewrite (bind_ok _ _ _ _ _ Ha1).
  match goal with |- context [bind (alloc ?o) _ ?s] =>
    destruct (alloc_ok o s) as (l2 & Ha2 & Hf2) end.
  rewrite (bind_ok _ _ _ _ _ Ha2).
  match goal with |- context [bind (alloc ?o) _ ?s] =>
    destruct (alloc_ok o s) as (l3 & Ha3 & Hf3) end.
  rewrite (bind_ok _ _ _ _ _ Ha3).
  match goal with |- context [bind (alloc ?o) _ ?s] =>
    destruct (alloc_ok o s) as (l4 & Ha4 & Hf4) end.
  rewrite (bind_ok _ _ _ _ _ Ha4).
  clear Ha1 Ha2 Ha3 Ha4. simpl in Hf2, Hf3, Hf4.
  assert (H21 : l2 ≠ l1) by (intros ->; by rewrite lookup_insert_eq in Hf2).
  assert (H32 : l3 ≠ l2) by (intros ->; by rewrite lookup_insert_eq in Hf3).
  assert (H43 : l4 ≠ l3) by (intros ->; by rewrite lookup_insert_eq in Hf4).
  rewrite lookup_insert_ne in Hf2 by done.
  rewrite lookup_insert_ne in Hf3 by done.
  assert (H31 : l3 ≠ l1) by (intros ->; by rewrite lookup_insert_eq in Hf3).
  rewrite lookup_insert_ne in Hf3 by done.
  rewrite lookup_insert_ne in Hf4 by done.
  assert (H42 : l4 ≠ l2) by (intros ->; by rewrite lookup_insert_eq in Hf4).
  rewrite lookup_insert_ne in Hf4 by done.
  assert (H41 : l4 ≠ l1) by (intros ->; by rewrite lookup_insert_eq in Hf4).
  rewrite lookup_insert_ne in Hf4 by done.
  erewrite (bind_ok (Handler.set_next l1 l2))
    by (apply set_next_ok; simpl; by simplify_map_eq).
  erewrite (bind_ok (Handler.set_next l2 l3))
    by (apply set_next_ok; simpl; by simplify_map_eq).
  erewrite (bind_ok (Handler.set_next l3 l4))
    by (apply set_next_ok; simpl; by simplify_map_eq).
  eexists _, _. split; [reflexivity|]. simpl.
  split_and!; try by simplify_map_eq.
  - rewrite !NoDup_cons, !not_elem_of_cons.
    split_and!; try done; try apply not_elem_of_nil; try apply NoDup_nil_2;
      by apply not_eq_sym.
  - intros l o Hl.
    assert (l ≠ l1 ∧ l ≠ l2 ∧ l ≠ l3 ∧ l ≠ l4)
      by (split_and!; intros ->; congruence).
    by simplify_map_eq.
Qed.

(** X11. Two [set_next] calls on different handlers commute: the order
    in which the links of a chain are written does not matter. *)
Theorem set_next_commutes (σ : state) (a b x y : loc) (ha hb : Handler) :
  heap σ !! a = Some (OHandler ha) →
  heap σ !! b = Some (OHandler hb) →
  a ≠ b →
  ∃ σ',
    (Handler.set_next a x;; Handler.set_next b y) σ = Some (y, σ')
    ∧ snd <$> (Handler.set_next b y;; Handler.set_next a x) σ = Some σ'
    ∧ heap σ' !! a = Some (linked ha x)
    ∧ heap σ' !! b = Some (linked hb y).
Proof.
  intros Ha Hb Hab. eexists. split_and!.
  - rewrite (bind_ok _ _ _ _ _ (set_next_ok _ _ x _ Ha)).
    apply set_next_ok. simpl. by rewrite lookup_insert_ne.
  - rewrite (bind_ok _ _ _ _ _ (set_next_ok _ _ y _ Hb)).
    erewrite set_next_ok by (simpl; by rewrite lookup_insert_ne).
    simpl. by rewrite insert_insert_ne.
  - simpl. rewrite lookup_insert_ne by done. apply lookup_insert_eq.
  - simpl. apply lookup_insert_eq.
Qed.

Lemma set_next_commutes_witness :
  ∃ σ,
    (a ← DataValidationHandler.new;
     b ← IPFilteringHandler.new None;
     FinalProcessingHandler.new) init = Some (3%positive, σ)
    ∧ ∃ σ',
        (Handler.set_next 1 2;; Handler.set_next 2 3) σ = Some (3%positive, σ')
        ∧ snd <$> (Handler.set_next 2 3;; Handler.set_next 1 2) σ = Some σ'
        ∧ heap σ' !! 1%positive =
            Some (OHandler {| cls := DataValidation;
                              next_handler := Some 2%positive |})
        ∧ heap σ' !! 2%positive =
            Some (OHandler
                    {| cls := IPFiltering
                                IPFilteringHandler.default_blocked_ips;
                       next_handler := Some 3%positive |}).
Proof.
  eexists. split; [vm_compute; reflexivity|].
  apply (set_next_commutes _ 1 2 2 3
           {| cls := DataValidation; next_handler := None |}
           {| cls := IPFiltering IPFilteringHandler.default_blocked_ips;
              next_handler := None |});
    [vm_compute; reflexivity | vm_compute; reflexivity | done].
Defined.

(** ** Payload normalization *)

Lemma strip_idempotent (s : str) : strip (strip s) = strip s.
Proof.
  symmetry. apply trimmed_strip.
  destruct (strip_trimmed s) as (pre & post & _ & _ & _ & Hhd & Hlast).
  exists [], []. rewrite app_nil_r. by split_and!.
Qed.

(** X12. The payload accessor normalizes once and for all: a request
    built from the payload read off another request has that same
    payload. *)
Theorem normalized_payload_is_stable (σ : state) (request : loc)
    (r : Request) (rid ip : str) :
  heap σ !! request = Some (ORequest r) →
  ∃ p σ2 request2,
    Request.data request σ = Some (p, σ)
    ∧ Request.new rid (Some p) ip σ = Some (request2, σ2)
    ∧ Request.data request2 σ2 = Some (p, σ2).
Proof.
  intros Hr. exists (payload r). eexists _, _.
  split_and!; [by apply Request_data_ok | reflexivity |].
  erewrite Request_data_ok by (simpl; apply lookup_insert_eq).
  unfold payload at 1. simpl. unfold payload.
  destruct (_data r) as [d|]; [|done]. by rewrite strip_idempotent.
Qed.

Lemma normalized_payload_is_stable_witness :
  ∃ σ,
    Request.new (lit "1") (Some (lit "  a b  ")) (lit "8.8.8.8") init
      = Some (1%positive, σ)
    ∧ ∃ p σ2 request2,
        Request.data 1 σ = Some (p, σ)
        ∧ Request.new (lit "2") (Some p) (lit "9.9.9.9") σ
            = Some (request2, σ2)
        ∧ Request.data request2 σ2 = Some (p, σ2).
Proof.
  eexists. split; [vm_compute; reflexivity|].
  eapply (normalized_payload_is_stable _ 1); vm_compute; reflexivity.
Defined.

(** X13. The final handler does not validate: called on a request whose
    raw payload is empty, whitespace-only or absent, it still answers
    with the processed string, built around an empty payload. *)
Theorem final_handler_accepts_blank_payload (σ : state) (self request : loc)
    (h : Handler) (r : Request) :
  heap σ !! self = Some (OHandler h) →
  cls h = FinalProcessing →
  heap σ !! request = Some (ORequest r) →
  blank (_data r) = true →
  fst <$> handle self request σ =
    Some (VStr (lit "Processed: " ++ request_id r ++ lit " with data ''")).
Proof.
  intros Hh Hc Hr Hb. rewrite (handle_outcome _ _ _ _ _ Hh Hr).
  unfold outcome. rewrite Hc, (blank_payload _ Hb). reflexivity.
Qed.

Lemma final_handler_accepts_blank_payload_witness :
  ∃ σ,
    (a ← FinalProcessingHandler.new;
     Request.new (lit "999") (Some (lit "   ")) (lit "1.2.3.4")) init
      = Some (2%positive, σ)
    ∧ fst <$> handle 1 2 σ =
        Some (VStr (lit "Processed: 999 with data ''")).
Proof.
  eexists. split; [vm_compute; reflexivity|].
  refine (eq_trans
    (final_handler_accepts_blank_payload _ 1 2
       {| cls := FinalProcessing; next_handler := None |}
       {| request_id := lit "999"; _data := Some (lit "   ");
          _client_ip := lit "1.2.3.4" |} _ _ _ _) _);
    vm_compute; reflexivity.
Defined.

(** ** The loop of the script *)

Lemma main_process_all :
  main =
    (hs ← build_chain;
     r1 ← Request.new (lit "200") (Some (lit "Order: 5 units"))
                      (lit "192.168.1.5");
     r2 ← Request.new (lit "201") (Some (lit "Order: 10 units"))
                      (lit "192.168.0.10");
     r3 ← Request.new (lit "123") (Some (lit "Cached content"))
                      (lit "192.168.1.8");
     process_all (validation_handler hs) [r1; r2; r3]).
Proof. reflexivity. Qed.




(** ** Misuse and verbatim payloads *)



(** X16. A raw payload that neither starts nor ends with a whitespace
    character is returned by the payload accessor exactly as it was
    given. *)
Theorem payload_without_outer_whitespace_verbatim (σ : state)
    (request : loc) (r : Request) (d : str) :
  heap σ !! request = Some (ORequest r) →
  _data r = Some d →
  (∀ c, head d = Some c → isspace c = false) →
  (∀ c, last d = Some c → isspace c = false) →
  Request.data request σ = Some (d, σ).
Proof.
  intros Hr Hd Hhd Hlast. rewrite (Request_data_ok _ _ _ Hr).
  unfold payload. rewrite Hd. unfold strip.
  by rewrite (lstrip_id _ Hhd), (rstrip_id _ Hlast).
Qed.

Lemma payload_without_outer_whitespace_verbatim_witness :
  ∃ σ,
    Request.new (lit "200") (Some (lit "Order: 5 units")) (lit "192.168.1.5")
      init = Some (1%positive, σ)
    ∧ Request.data 1 σ = Some (lit "Order: 5 units", σ).
Proof.
  eexists. split; [vm_compute; reflexivity|].
  apply (payload_without_outer_whitespace_verbatim _ 1
           {| request_id := lit "200"; _data := Some (lit "Order: 5 units");
              _client_ip := lit "192.168.1.5" |});
    [vm_compute; reflexivity | reflexivity | |];
    intros c [= <-]; vm_compute; reflexivity.
Defined.
